(** * PIDIM SMART dashboard: the React front end, embedded and verified

    Two revisions of the front end are embedded: the starter
    ([src/frontend/src/App.jsx], module [Starter]) and the revision with the
    custom month filter on the loan report (module [MonthFilter]).

    Rendering is embedded as a pure function from props and state to a tree
    of elements, an event handler as a function on the component state, and
    a raised [TypeError] as a value of [completion].  Numbers are the
    integer-valued binary64 numbers with [NaN] and the infinities (the
    report fields are counts and amounts): [+] rounds to the nearest
    binary64 number, ties to even, and is exact as long as the result stays
    within 2^53 in magnitude.  The conversion of a string to a number, the
    locale's number formatting and the parsing of a URL belong to the host
    and are fields of [Host].  React's own bookkeeping of hooks between
    renders is not part of the embedding. *)

From Stdlib Require Import ZArith String Ascii DecimalString SpecFloat.
From stdpp Require Import gmap strings list fin_maps.

(** ** JavaScript values and the operators the source uses *)

Module JS.

(** A number: [Num z] is the binary64 number of integer value [z]. *)
Inductive number :=
  | NaN
  | Num (z : Z)
  | Infinity (negative : bool).

Inductive value :=
  | VUndef
  | VNull
  | VBool (b : bool)
  | VNum (n : number)
  | VStr (s : string).

#[export] Instance number_eq_dec : EqDecision number.
Proof. solve_decision. Defined.

#[export] Instance value_eq_dec : EqDecision value.
Proof. solve_decision. Defined.

(** A URL with its search parameters. *)
Record URL := {
  href : string;
  searchParams : list (string * string);
}.

(** What the host provides: [Number(s)] on a string, [n.toLocaleString()]
    on a number, the build-time setting [VITE_API_BASE], and [new URL(s)],
    which raises a [TypeError] ([None]) when [s] is not an absolute URL. *)
Class Host := {
  StringToNumber : string → number;
  NumberToLocaleString : number → string;
  VITE_API_BASE : option string;
  new_URL : string → option URL;
}.

(** [typeof v === 'number'] *)
Definition typeof_number (v : value) : bool :=
  match v with VNum _ => true | _ => false end.

(** Truthiness of a number: [NaN] and [0] are falsy. *)
Definition number_truthy (n : number) : bool :=
  match n with
  | NaN => false
  | Num z => negb (z =? 0)%Z
  | Infinity _ => true
  end.

Definition string_truthy (s : string) : bool :=
  match s with EmptyString => false | _ => true end.

(** ToBoolean *)
Definition truthy (v : value) : bool :=
  match v with
  | VUndef | VNull => false
  | VBool b => b
  | VNum n => number_truthy n
  | VStr s => string_truthy s
  end.

(** [a || b] and [a ?? b] on values *)
Definition or_else (a b : value) : value := if truthy a then a else b.

Definition nullish (a b : value) : value :=
  match a with VUndef | VNull => b | _ => a end.

(** [n || 0] where [n] is a number *)
Definition number_or_zero (n : number) : number :=
  if number_truthy n then n else Num 0.

(** The integers that binary64 holds with all their neighbours: up to 2^53
    in magnitude. *)
Definition safe_integer (z : Z) : bool := (Z.abs z <=? 2 ^ 53)%Z.

(** The binary64 number nearest to the integer [z], ties to even: beyond
    2^53 the 53 leading bits are kept and the [k] bits below them rounded
    away; a result of 2^1024 or more is an infinity. *)
Definition round64 (z : Z) : number :=
  if safe_integer z then Num z
  else
    let k := (Z.log2 (Z.abs z) - 52)%Z in
    let q := (Z.abs z / 2 ^ k)%Z in
    let r := (Z.abs z mod 2 ^ k)%Z in
    let half := (2 ^ (k - 1))%Z in
    let q' := if (half <? r)%Z || ((r =? half)%Z && Z.odd q) then (q + 1)%Z else q in
    if (2 ^ 1024 <=? q' * 2 ^ k)%Z then Infinity (z <? 0)%Z
    else Num (Z.sgn z * (q' * 2 ^ k)).

Arguments round64 : simpl never.

(** [a + b] on numbers: the exact sum rounded to binary64. *)
Definition number_add (a b : number) : number :=
  match a, b with
  | NaN, _ | _, NaN => NaN
  | Num x, Num y => round64 (x + y)
  | Infinity n, Num _ | Num _, Infinity n => Infinity n
  | Infinity n, Infinity m => if Bool.eqb n m then Infinity n else NaN
  end.

(** [String(n)] on a number *)
Definition NumberToString (n : number) : string :=
  match n with
  | NaN => "NaN"
  | Num z => NilZero.string_of_int (Z.to_int z)
  | Infinity false => "Infinity"
  | Infinity true => "-Infinity"
  end.

(** [String(v)] *)
Definition ToString (v : value) : string :=
  match v with
  | VUndef => "undefined"
  | VNull => "null"
  | VBool true => "true"
  | VBool false => "false"
  | VNum n => NumberToString n
  | VStr s => s
  end.

(** [Number(v)] *)
Definition ToNumber `{Host} (v : value) : number :=
  match v with
  | VUndef => NaN
  | VNull => Num 0
  | VBool true => Num 1
  | VBool false => Num 0
  | VNum n => n
  | VStr s => StringToNumber s
  end.

(** [s.endsWith(suffix)] *)
Definition endsWith (s suffix : string) : bool :=
  let n := String.length s in
  let m := String.length suffix in
  if (m <=? n)%nat then String.eqb (substring (n - m) m s) suffix else false.

(** [v === 'lit'] against a string literal *)
Definition strict_eq_str (v : value) (lit : string) : bool :=
  match v with VStr s => String.eqb s lit | _ => false end.

(** [v.toLocaleString()] for a value that is neither [null] nor
    [undefined]: a string is returned as it is, a boolean as its name. *)
Definition toLocaleString `{Host} (v : value) : string :=
  match v with
  | VNum n => NumberToLocaleString n
  | other => ToString other
  end.

(** A raised exception or a normal result. *)
Inductive completion (A : Type) :=
  | Throw (e : string)
  | Return (a : A).
Arguments Throw {A} e.
Arguments Return {A} a.

#[export] Instance completion_ret : MRet completion := λ A a, Return a.

#[export] Instance completion_bind : MBind completion := λ A B k c,
  match c with Throw e => Throw e | Return a => k a end.

(** [xs.filter ...], [xs.map ...] where [xs] may be [undefined]: reading a
    property of [undefined] raises. *)
Definition array_of {A} (xs : option (list A)) : completion (list A) :=
  match xs with
  | None => Throw "TypeError"
  | Some l => Return l
  end.

End JS.
Export JS.

(** ** Data model *)

(** A report row is a JSON object: field name to value. *)
Abbreviation row := (gmap string value).

(** [r[k]]: a missing field reads as [undefined]. *)
Definition field (r : row) (k : string) : value := default VUndef (r !! k).

(** A column descriptor [{key, header, total, format}]; [total] and
    [format] may be left out. *)
Record column := {
  key : string;
  header : string;
  total : bool;
  format : option (value → string);
}.

(** What a table renders to. *)
Record tr_style := {
  background : option string;
  fontWeight : option Z;
}.

Record tr := {
  style : tr_style;
  tds : list value;
}.

Record table := {
  h2 : string;
  subtitle_div : option string;
  thead : list string;
  tbody : list tr;
  tfoot : option (list value);
}.

Inductive element :=
  | NoData
  | Table (t : table).

(** The object the data loader keeps: [{loan, poultry, grants}], where a
    key the response leaves out reads as [undefined]. *)
Record reports := {
  loan : option (list row);
  poultry : option (list row);
  grants : option (list row);
}.

(** How a request ends: the promise rejects (network failure, or a body
    that is not JSON), the body is JSON [null], or it is an object. *)
Inductive failure := FetchRejected | JsonParseError.

Inductive settled (A : Type) :=
  | Rejected (f : failure)
  | Fulfilled (body : option A).
Arguments Rejected {A} f.
Arguments Fulfilled {A} body.

(** The awaited request raises inside the [try] block: the promise
    rejects, or the body is [null] and reading [resp.rows] raises. *)
Definition raises {A} (response : settled A) : bool :=
  match response with
  | Fulfilled (Some _) => false
  | Fulfilled None | Rejected _ => true
  end.

(** ** The table renderer *)

Section Renderer.
Context `{Host}.

(** [function NumberFmt(n){ return (n??0).toLocaleString() }] *)
Definition NumberFmt (n : value) : string :=
  toLocaleString (nullish n (VNum (Num 0))).

(** [rows.reduce((s,r)=> s + (Number(r[c.key])||0), 0)] *)
Definition reduce_sum (rows : list row) (k : string) : number :=
  fold_left (λ s r, number_add s (number_or_zero (ToNumber (field r k)))) rows (Num 0).

(** The [useMemo] body: one entry per column with [total] set whose value
    in the first row has type number. *)
Definition totals (rows0 : row) (rows : list row) (columns : list column)
    : gmap string number :=
  fold_left
    (λ t c, if total c && typeof_number (field rows0 (key c))
            then <[key c := reduce_sum rows (key c)]> t
            else t)
    columns ∅.

(** [totals[k]] as a value *)
Definition totals_at (t : gmap string number) (k : string) : value :=
  match t !! k with Some n => VNum n | None => VUndef end.

(** The [style] of a body row. *)
Definition row_style (r : row) : tr_style :=
  {| background :=
       if endsWith (ToString (field r "Branch Name")) " Total" then Some "#fffbe6"
       else if strict_eq_str (field r "Branch Name") "Grand Total" then Some "#dcfce7"
       else None;
     fontWeight :=
       if strict_eq_str (field r "Branch Name") "Grand Total" then Some 800%Z
       else None |}.

(** [c.format ? c.format(v) : v] *)
Definition td (c : column) (v : value) : value :=
  match format c with Some f => VStr (f v) | None => v end.

Definition body_row (columns : list column) (r : row) : tr :=
  {| style := row_style r; tds := map (λ c, td c (field r (key c))) columns |}.

(** A cell of the footer row. *)
Definition foot_td (t : gmap string number) (c : column) : value :=
  if total c then td c (totals_at t (key c)) else VStr "".

End Renderer.

(** ** The chart mapper (the same lines in both revisions) *)

Abbreviation point := (gmap string value).

Record BarChart := {
  chart_data : list point;
  Bar_dataKey : string;
  Bar_name : string;
}.

Section Charts.
Context `{Host}.

Definition loanBase (loanRows : list row) : list row :=
  List.filter
    (λ r, negb (endsWith (ToString (field r "Branch Name")) " Total")
          && negb (strict_eq_str (field r "Branch Name") "Grand Total")
          && truthy (field r "Types of Loan"))
    loanRows.

Definition loanChartData (loanRows : list row) : list point :=
  map (λ r, {[ "branch" := field r "Branch Name";
               "type" := field r "Types of Loan";
               "amount" := VNum (ToNumber (or_else (field r "Amount of Loan") (VNum (Num 0)))) ]})
      (loanBase loanRows).

Definition birdsBase (poultry : list row) : list row :=
  List.filter (λ r, negb (strict_eq_str (field r "Branch Name") "Grand Total")) poultry.

Definition birdsChartData (poultry : list row) : list point :=
  map (λ r, {[ "branch" := field r "Branch Name";
               "type" := field r "Types of Poultry Rearing";
               "birds" := VNum (ToNumber (or_else (field r "# of Birds") (VNum (Num 0)))) ]})
      (birdsBase poultry).

Definition grantsBase (grants : list row) : list row :=
  List.filter (λ r, negb (strict_eq_str (field r "Branch Name") "Grand Total")) grants.

Definition grantsChartData (grants : list row) : list point :=
  map (λ r, {[ "branch" := field r "Branch Name";
               "amount" := VNum (ToNumber (or_else (field r "Amounts of Grants") (VNum (Num 0)))) ]})
      (grantsBase grants).

(** The column descriptors of the three panels. *)
Definition loanColumns : list column :=
  [ {| key := "Sl No"; header := "Sl No"; total := false; format := None |};
    {| key := "Branch Name"; header := "Branch Name"; total := false; format := None |};
    {| key := "Types of Loan"; header := "Types of Loan"; total := false; format := None |};
    {| key := "# of Loan"; header := "# of Loan"; total := true; format := Some NumberFmt |};
    {| key := "Amount of Loan"; header := "Amount of Loan"; total := true; format := Some NumberFmt |} ].

Definition poultryColumns : list column :=
  [ {| key := "Sl No"; header := "Sl No"; total := false; format := None |};
    {| key := "Branch Name"; header := "Branch Name"; total := false; format := None |};
    {| key := "Types of Poultry Rearing"; header := "Types of Poultry Rearing";
       total := false; format := None |};
    {| key := "# of MEs"; header := "# of MEs"; total := true; format := Some NumberFmt |};
    {| key := "# of Birds"; header := "# of Birds"; total := true; format := Some NumberFmt |} ].

Definition grantsColumns : list column :=
  [ {| key := "Sl No"; header := "Sl No"; total := false; format := None |};
    {| key := "Branch Name"; header := "Branch Name"; total := false; format := None |};
    {| key := "Number on MEs"; header := "Number on MEs"; total := true; format := Some NumberFmt |};
    {| key := "Amounts of Grants"; header := "Amounts of Grants"; total := true;
       format := Some NumberFmt |} ].

(** [import.meta.env.VITE_API_BASE || 'http://localhost:8000'] *)
Definition API_BASE : string :=
  match VITE_API_BASE with
  | Some s => if string_truthy s then s else "http://localhost:8000"
  | None => "http://localhost:8000"
  end.

End Charts.

(** [url.searchParams.set(name, v)]: the first parameter called [name]
    takes the value [v] and the other ones of that name are removed; when
    there is none, the pair is appended. *)
Fixpoint set_first (name v : string) (params : list (string * string))
    : list (string * string) :=
  match params with
  | [] => [(name, v)]
  | p :: rest =>
      if String.eqb p.1 name
      then (name, v) :: List.filter (λ q, negb (String.eqb q.1 name)) rest
      else p :: set_first name v rest
  end.

Definition searchParams_set (name v : string) (u : URL) : URL :=
  {| href := href u; searchParams := set_first name v (searchParams u) |}.

(** The body of [GET /reports/loan]. *)
Record loan_body := {
  rows : option (list row);
  month_label : option string;
}.

(** ** The starter: [src/frontend/src/App.jsx] *)

Module Starter.
Section App.
Context `{Host}.

Definition DataTable (title : string) (rows : option (list row))
    (columns : list column) : element :=
  match rows with
  | None | Some [] => NoData
  | Some ((rows0 :: _) as rows) =>
      let totals := totals rows0 rows columns in
      Table {|
        h2 := title;
        subtitle_div := None;
        thead := map header columns;
        tbody := map (body_row columns) rows;
        tfoot :=
          if negb (size totals =? 0)%nat
          then Some (map (foot_td totals) columns)
          else None |}
  end.

(** The state behind [useReports]. *)
Record state := {
  data : reports;
  loading : bool;
}.

Definition initial : state :=
  {| data := {| loan := Some []; poultry := Some []; grants := Some [] |};
     loading := true |}.

(** [fetch(...).then(r=>r.json()).then(setData).finally(()=>setLoading(false))] *)
Definition useReports_effect (response : settled reports) (s : state) : state :=
  match response with
  | Fulfilled (Some d) => {| data := d; loading := false |}
  | Fulfilled None =>
      {| data := {| loan := None; poultry := None; grants := None |}; loading := false |}
  | Rejected _ => {| data := data s; loading := false |}
  end.

Record dashboard := {
  loanTable : element;
  loanChart : BarChart;
  poultryTable : element;
  birdsChart : BarChart;
  grantsTable : element;
  grantsChart : BarChart;
  export_href : string;
}.

Inductive view :=
  | Loading
  | Wrap (d : dashboard).

Definition App (s : state) : completion view :=
  if loading s then mret Loading else
  loan_a ← array_of (loan (data s));
  let loanChartData := loanChartData loan_a in
  poultry_a ← array_of (poultry (data s));
  let birdsChartData := birdsChartData poultry_a in
  grants_a ← array_of (grants (data s));
  let grantsChartData := grantsChartData grants_a in
  mret (Wrap {|
    loanTable := DataTable "📊 Branch Wise Loan Disbursement" (loan (data s)) loanColumns;
    loanChart := {| chart_data := loanChartData; Bar_dataKey := "amount";
                    Bar_name := "Amount of Loan" |};
    poultryTable := DataTable "🐔 Types of Poultry Rearing" (poultry (data s)) poultryColumns;
    birdsChart := {| chart_data := birdsChartData; Bar_dataKey := "birds";
                     Bar_name := "# of Birds" |};
    grantsTable := DataTable "💠 MEs Grants Information" (grants (data s)) grantsColumns;
    grantsChart := {| chart_data := grantsChartData; Bar_dataKey := "amount";
                      Bar_name := "Amount of Grants" |};
    export_href := API_BASE +:+ "/export/excel" |}).

End App.
End Starter.

(** ** The revision with the custom month filter *)

Module MonthFilter.
Section App.
Context `{Host}.

Definition DataTable (title : string) (rows : option (list row))
    (columns : list column) (subtitle : option string)
    (showFooterTotals : option bool) : element :=
  match rows with
  | None | Some [] => NoData
  | Some ((rows0 :: _) as rows) =>
      let totals := totals rows0 rows columns in
      Table {|
        h2 := title;
        subtitle_div :=
          match subtitle with
          | Some sub => if string_truthy sub then Some sub else None
          | None => None
          end;
        thead := map header columns;
        tbody := map (body_row columns) rows;
        tfoot :=
          if default true showFooterTotals && negb (size totals =? 0)%nat
          then Some (map (foot_td totals) columns)
          else None |}
  end.

(** The state of [App]: the state behind [useReports], the three [useState]
    cells, and what has been written with [console.error]. *)
Record state := {
  data : reports;
  loading : bool;
  loanCustomRows : option (list row);
  loanMonth : string;
  loanMonthLabel : string;
  console : list string;
}.

Definition initial : state :=
  {| data := {| loan := Some []; poultry := Some []; grants := Some [] |};
     loading := true;
     loanCustomRows := None;
     loanMonth := "";
     loanMonthLabel := "";
     console := [] |}.

Definition setData (d : reports) (s : state) : state :=
  {| data := d; loading := loading s; loanCustomRows := loanCustomRows s;
     loanMonth := loanMonth s; loanMonthLabel := loanMonthLabel s; console := console s |}.

Definition setLoading (b : bool) (s : state) : state :=
  {| data := data s; loading := b; loanCustomRows := loanCustomRows s;
     loanMonth := loanMonth s; loanMonthLabel := loanMonthLabel s; console := console s |}.

Definition setLoanCustomRows (r : option (list row)) (s : state) : state :=
  {| data := data s; loading := loading s; loanCustomRows := r;
     loanMonth := loanMonth s; loanMonthLabel := loanMonthLabel s; console := console s |}.

Definition setLoanMonth (m : string) (s : state) : state :=
  {| data := data s; loading := loading s; loanCustomRows := loanCustomRows s;
     loanMonth := m; loanMonthLabel := loanMonthLabel s; console := console s |}.

Definition setLoanMonthLabel (l : string) (s : state) : state :=
  {| data := data s; loading := loading s; loanCustomRows := loanCustomRows s;
     loanMonth := loanMonth s; loanMonthLabel := l; console := console s |}.

Definition console_error (e : string) (s : state) : state :=
  {| data := data s; loading := loading s; loanCustomRows := loanCustomRows s;
     loanMonth := loanMonth s; loanMonthLabel := loanMonthLabel s;
     console := console s ++ [e] |}.

(** [fetch(...).then(r=>r.json()).then(setData).finally(()=>setLoading(false))] *)
Definition useReports_effect (response : settled reports) (s : state) : state :=
  match response with
  | Fulfilled (Some d) => setLoading false (setData d s)
  | Fulfilled None =>
      setLoading false (setData {| loan := None; poultry := None; grants := None |} s)
  | Rejected _ => setLoading false s
  end.

(** [const loanRows = loanCustomRows ?? loan] *)
Definition loanRows (s : state) : option (list row) :=
  match loanCustomRows s with
  | Some custom => Some custom
  | None => loan (data s)
  end.

(** The URL [applyLoanMonth] fetches; [None] when [new URL] raises. *)
Definition applyLoanMonth_url (s : state) : option URL :=
  match new_URL (API_BASE +:+ "/reports/loan") with
  | None => None
  | Some url =>
      Some (if string_truthy (loanMonth s)
            then searchParams_set "month" (loanMonth s) url
            else url)
  end.

(** The [catch] block of [applyLoanMonth]. *)
Definition catch (e : string) (s : state) : state :=
  setLoanMonthLabel "" (setLoanCustomRows None (console_error e s)).

(** What [applyLoanMonth] does once the awaited request has settled: the
    rest of the [try] block, or the [catch] block. *)
Definition applyLoanMonth_resume (response : settled loan_body) (s : state) : state :=
  match response with
  | Fulfilled (Some resp) =>
      setLoanMonthLabel
        (match month_label resp with
         | Some l => if string_truthy l then l else ""
         | None => ""
         end)
        (setLoanCustomRows (Some (default [] (rows resp))) s)
  | Fulfilled None => catch "TypeError" s
  | Rejected FetchRejected => catch "TypeError" s
  | Rejected JsonParseError => catch "SyntaxError" s
  end.

(** [new URL] raising ends in the [catch] block before anything is
    fetched. *)
Definition applyLoanMonth (fetch : URL → settled loan_body) (s : state) : state :=
  match applyLoanMonth_url s with
  | None => catch "TypeError" s
  | Some url => applyLoanMonth_resume (fetch url) s
  end.

(** Something raises inside the [try] block of [applyLoanMonth]. *)
Definition try_raises (fetch : URL → settled loan_body) (s : state) : bool :=
  match applyLoanMonth_url s with
  | None => true
  | Some url => raises (fetch url)
  end.

Definition clearLoanMonth (s : state) : state :=
  setLoanMonthLabel "" (setLoanCustomRows None (setLoanMonth "" s)).

Record controls := {
  input_value : string;
  Clear_button : bool;
}.

Record dashboard := {
  month_controls : controls;
  loanTable : element;
  loanChart : BarChart;
  poultryTable : element;
  birdsChart : BarChart;
  grantsTable : element;
  grantsChart : BarChart;
  export_href : string;
}.

Inductive view :=
  | Loading
  | Wrap (d : dashboard).

(** The opening tag of the loan table is read as its attributes [title],
    [subtitle], [rows], [showFooterTotals={false}] and [columns]: the braced
    comment written after [showFooterTotals={false}] stands among the
    attributes, where JSX takes attributes and spreads only, and is left
    out. *)
Definition App (s : state) : completion view :=
  if loading s then mret Loading else
  let loanRows := loanRows s in
  loanRows_a ← array_of loanRows;
  let loanChartData := loanChartData loanRows_a in
  poultry_a ← array_of (poultry (data s));
  let birdsChartData := birdsChartData poultry_a in
  grants_a ← array_of (grants (data s));
  let grantsChartData := grantsChartData grants_a in
  mret (Wrap {|
    month_controls :=
      {| input_value := loanMonth s;
         Clear_button := bool_decide (is_Some (loanCustomRows s)) |};
    loanTable :=
      DataTable "📊 Branch Wise Loan Disbursement" loanRows loanColumns
        (if string_truthy (loanMonthLabel s)
         then Some ("Month: " +:+ loanMonthLabel s) else None)
        (Some false);
    loanChart := {| chart_data := loanChartData; Bar_dataKey := "amount";
                    Bar_name := "Amount of Loan" |};
    poultryTable :=
      DataTable "🐔 Types of Poultry Rearing" (poultry (data s)) poultryColumns None None;
    birdsChart := {| chart_data := birdsChartData; Bar_dataKey := "birds";
                     Bar_name := "# of Birds" |};
    grantsTable :=
      DataTable "💠 MEs Grants Information" (grants (data s)) grantsColumns None None;
    grantsChart := {| chart_data := grantsChartData; Bar_dataKey := "amount";
                      Bar_name := "Amount of Grants" |};
    export_href := API_BASE +:+ "/export/excel" |}).

(** What can happen once the dashboard is shown: the month input changes,
    Apply is clicked and its request settles, a request of an earlier click
    settles, Clear is clicked. *)
Inductive event :=
  | input_onChange (m : string)
  | Apply_onClick (fetch : URL → settled loan_body)
  | request_settles (response : settled loan_body)
  | Clear_onClick.

Definition handle (s : state) (e : event) : state :=
  match e with
  | input_onChange m => setLoanMonth m s
  | Apply_onClick fetch => applyLoanMonth fetch s
  | request_settles response => applyLoanMonth_resume response s
  | Clear_onClick => clearLoanMonth s
  end.

Definition run (s : state) (es : list event) : state := fold_left handle es s.

(** The state once the fixed reports [d] have been fetched. *)
Definition loaded (d : reports) : state :=
  useReports_effect (Fulfilled (Some d)) initial.

End App.
End MonthFilter.

(** ** Reading a rendered table *)

Definition footer (e : element) : option (list value) :=
  match e with
  | NoData => None
  | Table t => tfoot t
  end.

Definition body (e : element) : list tr :=
  match e with
  | NoData => []
  | Table t => tbody t
  end.

(** A column contributes an entry to [totals] when it is flagged and the
    first row holds a number under its key. *)
Definition totalled (rows0 : row) (c : column) : bool :=
  total c && typeof_number (field rows0 (key c)).

(** What a point holds for the row it comes from: the branch, the numeric
    field under [k] coerced by [Number(v || 0)], and the category under
    [cat] when the chart has one. *)
Definition projects (cat : option string) (numeric k : string) (r : row) (p : point) : Prop :=
  p !! "branch" = Some (field r "Branch Name") ∧
  (∃ n : number,
      p !! k = Some (VNum n) ∧
      (field r numeric = VUndef ∨ field r numeric = VNull → n = Num 0) ∧
      (∀ z, field r numeric = VNum (Num z) → n = Num z)) ∧
  match cat with
  | Some c => p !! "type" = Some (field r c) ∧ dom p = {[ "branch"; "type"; k ]}
  | None => p !! "type" = None ∧ dom p = {[ "branch"; k ]}
  end.

(** ** The column total as the specification words it

    The sum over all rows [r] of [Number(r[C])], where a value that is
    missing or does not convert to a number contributes 0. *)

Section SpecTotal.
Context `{Host}.

Definition contribution (v : value) : Z :=
  match ToNumber v with
  | Num z => z
  | NaN | Infinity _ => 0
  end.

Fixpoint sum_of_column (R : list row) (C : string) : Z :=
  match R with
  | [] => 0
  | r :: R' => contribution (field r C) + sum_of_column R' C
  end.

(** The sum is the exact one when it can be taken in binary64 without
    rounding: every value counted is a safe integer and so is every running
    sum, starting from [acc]. *)
Fixpoint sums_stay_safe (acc : Z) (R : list row) (C : string) : bool :=
  match R with
  | [] => true
  | r :: R' =>
      match number_or_zero (ToNumber (field r C)) with
      | Num z => safe_integer z && safe_integer (acc + z)
                 && sums_stay_safe (acc + z) R' C
      | NaN | Infinity _ => false
      end
  end.

End SpecTotal.

(** The binary64 addition of the standard library, on integer values. *)
Definition to_spec_float (n : number) : spec_float :=
  match n with
  | NaN => S754_nan
  | Infinity negative => S754_infinity negative
  | Num z => binary_normalize 53 1024 z 0 false
  end.

Definition of_spec_float (f : spec_float) : number :=
  match f with
  | S754_nan => NaN
  | S754_infinity negative => Infinity negative
  | S754_zero _ => Num 0
  | S754_finite negative m e => Num (cond_Zopp negative (Z.shiftl (Zpos m) e))
  end.

Definition SFadd64 (a b : number) : number :=
  of_spec_float (SFadd 53 1024 (to_spec_float a) (to_spec_float b)).

(** ** A host for the worked examples

    Decimal integer literals convert to numbers, every other string but the
    empty one to [NaN]; numbers are printed without grouping; the API base
    is left unset; a URL is a string that starts with [http://] or
    [https://], taken without a query. *)

Definition decimal_StringToNumber (s : string) : number :=
  match s with
  | EmptyString => Num 0
  | _ => match NilZero.int_of_string s with
         | Some i => Num (Z.of_int i)
         | None => NaN
         end
  end.

Definition plain_host : Host :=
  {| StringToNumber := decimal_StringToNumber;
     NumberToLocaleString := NumberToString;
     VITE_API_BASE := None;
     new_URL := λ s, if String.prefix "http://" s || String.prefix "https://" s
                     then Some {| href := s; searchParams := [] |}
                     else None |}.

(** The same host with the API base set to a path, which is no absolute
    URL. *)
Definition relative_host : Host :=
  {| StringToNumber := decimal_StringToNumber;
     NumberToLocaleString := NumberToString;
     VITE_API_BASE := Some "/api"%string;
     new_URL := λ s, if String.prefix "http://" s || String.prefix "https://" s
                     then Some {| href := s; searchParams := [] |}
                     else None |}.

(** The example of the specification: a branch row, its subtotal and the
    grand total. *)
Definition example_rows : list row :=
  [ {[ "Branch Name" := VStr "A"; "Amount of Loan" := VNum (Num 100) ]};
    {[ "Branch Name" := VStr "A Total"; "Amount of Loan" := VNum (Num 100) ]};
    {[ "Branch Name" := VStr "Grand Total"; "Amount of Loan" := VNum (Num 100) ]} ].

(** Fixed reports with one branch each, and a state in which the month
    2024-05 has been applied with a one-row answer labelled "May 2024". *)
Definition example_reports : reports :=
  {| loan := Some
       [ {[ "Branch Name" := VStr "A"; "Types of Loan" := VStr "Agri";
            "# of Loan" := VNum (Num 2); "Amount of Loan" := VNum (Num 100) ]};
         {[ "Branch Name" := VStr "A Total";
            "# of Loan" := VNum (Num 2); "Amount of Loan" := VNum (Num 100) ]};
         {[ "Branch Name" := VStr "Grand Total";
            "# of Loan" := VNum (Num 2); "Amount of Loan" := VNum (Num 100) ]} ];
     poultry := Some
       [ {[ "Branch Name" := VStr "A"; "Types of Poultry Rearing" := VStr "Layer";
            "# of MEs" := VNum (Num 3); "# of Birds" := VNum (Num 40) ]};
         {[ "Branch Name" := VStr "Grand Total";
            "# of MEs" := VNum (Num 3); "# of Birds" := VNum (Num 40) ]} ];
     grants := Some
       [ {[ "Branch Name" := VStr "A"; "Number on MEs" := VNum (Num 1);
            "Amounts of Grants" := VNum (Num 500) ]} ] |}.

Definition may_2024 : loan_body :=
  {| rows := Some [ {[ "Branch Name" := VStr "B"; "Types of Loan" := VStr "SME";
                       "# of Loan" := VNum (Num 1); "Amount of Loan" := VNum (Num 70) ]} ];
     month_label := Some "May 2024"%string |}.

Definition example_events : list MonthFilter.event :=
  [ MonthFilter.input_onChange "2024-05";
    MonthFilter.Apply_onClick (λ _, Fulfilled (Some may_2024)) ].

(** The starter's state once the fixed reports [d] have been fetched. *)
Definition starter_loaded (d : reports) : Starter.state :=
  Starter.useReports_effect (Fulfilled (Some d)) Starter.initial.

(** An answer for a month without disbursements: a label and no rows. *)
Definition june_2024 : loan_body :=
  {| rows := Some []; month_label := Some "June 2024"%string |}.

(** ** Worked examples *)

Example endsWith_grand : endsWith "Grand Total" " Total" = true.
Proof. reflexivity. Qed.

Example endsWith_short : endsWith "Total" " Total" = false.
Proof. reflexivity. Qed.

Example ToString_negative : ToString (VNum (Num (-12))) = "-12"%string.
Proof. reflexivity. Qed.

Example example_footer :
  footer (@MonthFilter.DataTable plain_host "t" (Some example_rows)
            [ {| key := "Amount of Loan"; header := "Amount of Loan"; total := true;
                 format := Some (@NumberFmt plain_host) |} ] None None)
  = Some [VStr "300"].
Proof. vm_compute. reflexivity. Qed.

(** Beyond 2^53 the additions round: the total of 2^53, 1 and 1 is 2^53,
    two short of the sum. *)
Example total_rounds_beyond_2_53 :
  let R : list row :=
    [ {[ "Amount of Loan" := VNum (Num 9007199254740992) ]};
      {[ "Amount of Loan" := VNum (Num 1) ]};
      {[ "Amount of Loan" := VNum (Num 1) ]} ] in
  @reduce_sum plain_host R "Amount of Loan" = Num 9007199254740992 ∧
  @sum_of_column plain_host R "Amount of Loan" = 9007199254740994%Z ∧
  @sums_stay_safe plain_host 0 R "Amount of Loan" = false.
Proof. vm_compute. done. Qed.

(** [number_add] against the binary64 addition of the standard library:
    exact sums, ties to even on either side, and overflow. *)
Example number_add_is_SFadd :
  Forall (λ xy : Z * Z, number_add (Num xy.1) (Num xy.2) = SFadd64 (Num xy.1) (Num xy.2))
    [ (100, 200); (-7, 7); (2 ^ 53, 1); (2 ^ 53, -1); (2 ^ 53 + 2, 1); (2 ^ 53 + 2, 3);
      (- 2 ^ 53 - 2, -1); (2 ^ 60, 2 ^ 7); (2 ^ 60, 2 ^ 7 + 1); (10 ^ 20, 1);
      (123456789012345680, 987654321); (2 ^ 1023, 2 ^ 1023);
      (- 2 ^ 1023, - 2 ^ 1023); ((2 ^ 53 - 1) * 2 ^ 971, 2 ^ 969);
      ((2 ^ 53 - 1) * 2 ^ 971, 2 ^ 970) ]%Z.
Proof. repeat constructor; vm_compute; reflexivity. Qed.

Example number_add_rounds :
  number_add (Num (2 ^ 53)) (Num 1) = Num (2 ^ 53) ∧
  number_add (Num (2 ^ 53 + 2)) (Num 1) = Num (2 ^ 53 + 4) ∧
  number_add (Num (2 ^ 1023)) (Num (2 ^ 1023)) = Infinity false ∧
  number_add (Infinity false) (Infinity true) = NaN.
Proof. vm_compute. done. Qed.

Example example_chart :
  @loanChartData plain_host
    (map (λ r : row, <["Types of Loan" := VStr "Agri"]> r) example_rows)
  = [ {[ "branch" := VStr "A"; "type" := VStr "Agri"; "amount" := VNum (Num 100) ]} ].
Proof. vm_compute. reflexivity. Qed.

(** ** The table renderer: column totals *)

Section TotalsFacts.
Context `{Host}.

(** Within the safe integers the addition is exact. *)
Lemma number_add_safe (x y : Z) :
  safe_integer (x + y) = true → number_add (Num x) (Num y) = Num (x + y).
Proof. intros Hs. unfold number_add, round64. by rewrite Hs. Qed.

(** [Number(v) || 0] is the value's contribution, unless it is infinite. *)
Lemma number_or_zero_contribution (v : value) (z : Z) :
  number_or_zero (ToNumber v) = Num z → contribution v = z.
Proof.
  unfold number_or_zero, contribution.
  destruct (ToNumber v) as [|z'|n]; simpl; [congruence| |done].
  destruct (Z.eqb_spec z' 0) as [->|_]; simpl; congruence.
Qed.

Lemma reduce_from (R : list row) (C : string) (acc : Z) :
  sums_stay_safe acc R C = true →
  fold_left (λ s r, number_add s (number_or_zero (ToNumber (field r C)))) R (Num acc)
  = Num (acc + sum_of_column R C).
Proof.
  revert acc. induction R as [|r R IH]; intros acc; cbn [sums_stay_safe fold_left sum_of_column].
  - by rewrite Z.add_0_r.
  - destruct (number_or_zero _) as [|z|n] eqn:Hz; [done| |done].
    rewrite !andb_true_iff. intros [[_ Hacc] HR].
    rewrite (number_add_safe _ _ Hacc), (IH _ HR).
    rewrite (number_or_zero_contribution _ _ Hz). f_equal. lia.
Qed.

(** The left fold of the source computes the sum the specification words,
    as long as no addition rounds. *)
Lemma reduce_sum_spec (R : list row) (C : string) :
  sums_stay_safe 0 R C = true → reduce_sum R C = Num (sum_of_column R C).
Proof. intros Hs. unfold reduce_sum. by rewrite reduce_from. Qed.

Lemma totals_snoc (rows0 : row) (R : list row) (cs : list column) (c : column) :
  totals rows0 R (cs ++ [c])
  = if totalled rows0 c
    then <[key c := reduce_sum R (key c)]> (totals rows0 R cs)
    else totals rows0 R cs.
Proof. unfold totals. by rewrite fold_left_app. Qed.

Lemma totals_lookup_Some (rows0 : row) (R : list row) (cs : list column) (k : string) (n : number) :
  totals rows0 R cs !! k = Some n → n = reduce_sum R k.
Proof.
  induction cs as [|c cs IH] using rev_ind; [done|].
  rewrite totals_snoc. destruct (totalled rows0 c); [|done].
  destruct (decide (key c = k)) as [<-|Hne].
  - rewrite lookup_insert_eq. congruence.
  - by rewrite lookup_insert_ne.
Qed.

Lemma totals_lookup_is_Some (rows0 : row) (R : list row) (cs : list column) (k : string) :
  is_Some (totals rows0 R cs !! k)
  ↔ ∃ c, c ∈ cs ∧ key c = k ∧ totalled rows0 c = true.
Proof.
  induction cs as [|c cs IH] using rev_ind.
  - split; [intros [? ?]; done|]. intros (c & Hc & _). by apply elem_of_nil in Hc.
  - rewrite totals_snoc. setoid_rewrite elem_of_app. setoid_rewrite list_elem_of_singleton.
    destruct (totalled rows0 c) eqn:Ht.
    + destruct (decide (key c = k)) as [<-|Hne].
      * rewrite lookup_insert_eq. split; [|by eauto]. intros _. exists c. eauto.
      * rewrite lookup_insert_ne by done. rewrite IH. split.
        -- intros (c' & ? & ? & ?). exists c'. eauto.
        -- intros (c' & [?| ->] & ? & ?); [by exists c'|done].
    + rewrite IH. split.
      * intros (c' & ? & ? & ?). exists c'. eauto.
      * intros (c' & [?| ->] & ? & ?); [by exists c'|congruence].
Qed.

Lemma totals_lookup (rows0 : row) (R : list row) (cs : list column) (c : column) :
  c ∈ cs → totalled rows0 c = true →
  totals rows0 R cs !! key c = Some (reduce_sum R (key c)).
Proof.
  intros Hc Ht.
  destruct (proj2 (totals_lookup_is_Some rows0 R cs (key c))) as [n Hn]; [by eauto|].
  by rewrite Hn, (totals_lookup_Some _ _ _ _ _ Hn).
Qed.

(** [Object.keys(totals).length] is not zero exactly when some column
    contributes. *)
Lemma totals_nonempty (rows0 : row) (R : list row) (cs : list column) :
  negb (size (totals rows0 R cs) =? 0)%nat = true
  ↔ ∃ c, c ∈ cs ∧ totalled rows0 c = true.
Proof.
  rewrite negb_true_iff, Nat.eqb_neq, map_size_ne_0_lookup. split.
  - intros [k Hk]. apply totals_lookup_is_Some in Hk as (c & ? & ? & ?). eauto.
  - intros (c & ? & ?). exists (key c). apply totals_lookup_is_Some. eauto.
Qed.

End TotalsFacts.

Section FooterTotals.
Context `{Host}.

(** C1 (as amended).  For every non-empty row set, with the footer enabled
    (the default, or [showFooterTotals] true; always in the starter), and
    for every column [C] flagged summable whose value in the first row has
    type number: a footer row is rendered, and its cell for [C] is the
    column's formatter applied to the total of [C], accumulated row by row in
    binary64 from [Number(r[C]) || 0].  When the values counted are safe
    integers and every running sum stays one, that total is the sum over all
    rows of [Number(r[C])], a missing or non-numeric value contributing 0.
    In the footer row every column not flagged summable shows the empty
    string. *)
Theorem footer_total_of_summable_column
    (title : string) (subtitle : option string) (rows0 : row) (R : list row)
    (columns : list column) (i : nat) (C : column) :
  columns !! i = Some C →
  total C = true →
  typeof_number (field rows0 (key C)) = true →
  ∃ foot : list value,
    footer (MonthFilter.DataTable title (Some (rows0 :: R)) columns subtitle None) = Some foot ∧
    footer (MonthFilter.DataTable title (Some (rows0 :: R)) columns subtitle (Some true)) = Some foot ∧
    footer (Starter.DataTable title (Some (rows0 :: R)) columns) = Some foot ∧
    foot !! i = Some (td C (VNum (reduce_sum (rows0 :: R) (key C)))) ∧
    (sums_stay_safe 0 (rows0 :: R) (key C) = true →
     foot !! i = Some (td C (VNum (Num (sum_of_column (rows0 :: R) (key C)))))) ∧
    ∀ j c, columns !! j = Some c → total c = false → foot !! j = Some (VStr "").
Proof.
  intros Hi Htot Hnum.
  assert (HC : C ∈ columns) by (apply list_elem_of_lookup; eauto).
  assert (Ht : totalled rows0 C = true) by (unfold totalled; by rewrite Htot, Hnum).
  assert (Hne : negb (size (totals rows0 (rows0 :: R) columns) =? 0)%nat = true)
    by (apply totals_nonempty; eauto).
  assert (Hcell : map (foot_td (totals rows0 (rows0 :: R) columns)) columns !! i
                  = Some (td C (VNum (reduce_sum (rows0 :: R) (key C))))).
  { rewrite list_lookup_fmap, Hi. cbn [fmap option_fmap option_map]. unfold foot_td, totals_at.
    by rewrite Htot, (totals_lookup _ _ _ _ HC Ht). }
  exists (map (foot_td (totals rows0 (rows0 :: R) columns)) columns).
  cbn [MonthFilter.DataTable Starter.DataTable footer tfoot default].
  rewrite Hne. cbn [andb]. split_and!; try done.
  - intros Hsafe. by rewrite Hcell, (reduce_sum_spec _ _ Hsafe).
  - intros j c Hj Hc. rewrite list_lookup_fmap, Hj. cbn. unfold foot_td. by rewrite Hc.
Qed.

End FooterTotals.

(** C1, witness: the example of the specification, total 300. *)
Lemma footer_total_of_summable_column_witness :
  ∃ foot : list value,
    footer (@MonthFilter.DataTable plain_host "Loan" (Some example_rows)
              (@loanColumns plain_host) None None) = Some foot ∧
    footer (@MonthFilter.DataTable plain_host "Loan" (Some example_rows)
              (@loanColumns plain_host) None (Some true)) = Some foot ∧
    footer (@Starter.DataTable plain_host "Loan" (Some example_rows)
              (@loanColumns plain_host)) = Some foot ∧
    @sums_stay_safe plain_host 0 example_rows "Amount of Loan" = true ∧
    foot !! 4%nat = Some (VStr "300") ∧
    ∀ j c, @loanColumns plain_host !! j = Some c → total c = false →
           foot !! j = Some (VStr "").
Proof.
  pose proof (@footer_total_of_summable_column plain_host "Loan" None
                {[ "Branch Name" := VStr "A"; "Amount of Loan" := VNum (Num 100) ]}
                (tail example_rows) (@loanColumns plain_host) 4
                {| key := "Amount of Loan"; header := "Amount of Loan"; total := true;
                   format := Some (@NumberFmt plain_host) |}
                eq_refl eq_refl eq_refl) as (foot & H1 & H2 & H3 & _ & H4 & H5).
  exists foot.
  split_and!; [exact H1 | exact H2 | exact H3 | reflexivity | exact (H4 eq_refl) | exact H5].
Defined.

(** C1, as stated, fails: the first row has no amount, so the summable
    column "Amounts of Grants" gets no total although the sum over the rows
    is 100; the footer row (rendered for "Number on MEs") shows the
    formatter's rendering of a missing total for it. *)
Lemma footer_total_first_row_not_number :
  let R : list row :=
    [ {[ "Branch Name" := VStr "A"; "Number on MEs" := VNum (Num 2) ]};
      {[ "Branch Name" := VStr "B"; "Number on MEs" := VNum (Num 3);
         "Amounts of Grants" := VNum (Num 100) ]} ] in
  @sum_of_column plain_host R "Amounts of Grants" = 100%Z ∧
  footer (@MonthFilter.DataTable plain_host "Grants" (Some R)
            (@grantsColumns plain_host) None None)
  = Some [VStr ""; VStr ""; VStr "5"; VStr "0"] ∧
  footer (@MonthFilter.DataTable plain_host "Grants" (Some R)
            [ {| key := "Amounts of Grants"; header := "Amounts of Grants"; total := true;
                 format := Some (@NumberFmt plain_host) |} ] None None)
  = None.
Proof. vm_compute. done. Qed.

(** ** The table renderer: row markers *)

Lemma strict_eq_str_true (v : value) (lit : string) :
  strict_eq_str v lit = true ↔ v = VStr lit.
Proof.
  destruct v; simpl; try (split; [done|congruence]).
  rewrite String.eqb_eq. split; congruence.
Qed.

(** The suffix test comes first in the [background] expression, and
    "Grand Total" itself ends in " Total". *)
Lemma grand_total_is_subtotal (r : row) :
  strict_eq_str (field r "Branch Name") "Grand Total" = true →
  endsWith (ToString (field r "Branch Name")) " Total" = true.
Proof. intros Heq. apply strict_eq_str_true in Heq. by rewrite Heq. Qed.

(** A row whose branch name is a string: the markers by cases. *)
Lemma row_style_cases (r : row) (name : string) :
  field r "Branch Name" = VStr name →
  row_style r =
    {| background := if endsWith name " Total" then Some "#fffbe6" else None;
       fontWeight := if String.eqb name "Grand Total" then Some 800%Z else None |}.
Proof.
  intros Hn. unfold row_style. rewrite Hn. simpl.
  destruct (endsWith name " Total") eqn:He; [done|].
  destruct (String.eqb_spec name "Grand Total") as [->|_]; done.
Qed.

(** C2.  The row named "Grand Total" is rendered with the background of a
    subtotal row (and weight 800); the background written for the grand
    total, [#dcfce7], is given to no row at all. *)
Theorem grand_total_row_gets_subtotal_background :
  row_style {[ "Branch Name" := VStr "Grand Total" ]}
  = {| background := Some "#fffbe6"; fontWeight := Some 800%Z |} ∧
  row_style {[ "Branch Name" := VStr "A Total" ]}
  = {| background := Some "#fffbe6"; fontWeight := None |} ∧
  ∀ r : row, background (row_style r) ≠ Some "#dcfce7".
Proof.
  repeat split.
  intros r. unfold row_style. simpl.
  destruct (endsWith _ " Total") eqn:He; [done|].
  destruct (strict_eq_str _ "Grand Total") eqn:Hg; [|done].
  by rewrite (grand_total_is_subtotal r Hg) in He.
Qed.

(** ** The chart mapper *)

Lemma elem_of_List_filter {A} (f : A → bool) (l : list A) (x : A) :
  x ∈ List.filter f l ↔ x ∈ l ∧ f x = true.
Proof. rewrite !list_elem_of_In. apply filter_In. Qed.

Lemma not_grand_total (v : value) :
  negb (strict_eq_str v "Grand Total") = true ↔ v ≠ VStr "Grand Total".
Proof.
  rewrite negb_true_iff, <- not_true_iff_false.
  by rewrite strict_eq_str_true.
Qed.

Section ChartFacts.
Context `{Host}.

Lemma elem_of_loanBase (R : list row) (r : row) :
  r ∈ loanBase R
  ↔ r ∈ R ∧ endsWith (ToString (field r "Branch Name")) " Total" = false
          ∧ truthy (field r "Types of Loan") = true.
Proof.
  unfold loanBase. rewrite elem_of_List_filter, !andb_true_iff, negb_true_iff.
  split; [tauto|]. intros (? & He & ?). repeat split; try done.
  destruct (strict_eq_str _ _) eqn:Hg; [|done].
  by rewrite (grand_total_is_subtotal r Hg) in He.
Qed.

Lemma elem_of_birdsBase (R : list row) (r : row) :
  r ∈ birdsBase R ↔ r ∈ R ∧ field r "Branch Name" ≠ VStr "Grand Total".
Proof. unfold birdsBase. by rewrite elem_of_List_filter, not_grand_total. Qed.

Lemma elem_of_grantsBase (R : list row) (r : row) :
  r ∈ grantsBase R ↔ r ∈ R ∧ field r "Branch Name" ≠ VStr "Grand Total".
Proof. unfold grantsBase. by rewrite elem_of_List_filter, not_grand_total. Qed.

(** [Number(v || 0)]: a missing field gives 0, a number gives itself. *)
Lemma Number_or_zero_missing (v : value) :
  v = VUndef ∨ v = VNull → ToNumber (or_else v (VNum (Num 0))) = Num 0.
Proof. by intros [-> | ->]. Qed.

Lemma Number_or_zero_number (z : Z) :
  ToNumber (or_else (VNum (Num z)) (VNum (Num 0))) = Num z.
Proof.
  unfold or_else. simpl. destruct (Z.eqb_spec z 0) as [->|_]; done.
Qed.

(** C3 (as amended).  Every chart leaves out each row named "Grand Total";
    the loan chart also leaves out each row whose name ends in " Total" and
    each row whose "Types of Loan" is empty or missing.  The rows that
    remain are projected in order: a loan or poultry row to
    [{branch, type, number}], a grants row to [{branch, number}] with no
    category, the number being 0 when the numeric field is missing. *)
Theorem chart_projection (R : list row) :
  (∀ r, field r "Branch Name" = VStr "Grand Total" →
        (r ∉ loanBase R) ∧ (r ∉ birdsBase R) ∧ (r ∉ grantsBase R)) ∧
  (∀ r name, field r "Branch Name" = VStr name → endsWith name " Total" = true →
        r ∉ loanBase R) ∧
  (∀ r, field r "Types of Loan" = VUndef ∨ field r "Types of Loan" = VNull
        ∨ field r "Types of Loan" = VStr "" → r ∉ loanBase R) ∧
  (∀ r, r ∈ birdsBase R ↔ r ∈ R ∧ field r "Branch Name" ≠ VStr "Grand Total") ∧
  (∀ r, r ∈ grantsBase R ↔ r ∈ R ∧ field r "Branch Name" ≠ VStr "Grand Total") ∧
  (∀ r, r ∈ loanBase R
        ↔ r ∈ R ∧ endsWith (ToString (field r "Branch Name")) " Total" = false
                ∧ truthy (field r "Types of Loan") = true) ∧
  Forall2 (projects (Some "Types of Loan") "Amount of Loan" "amount")
          (loanBase R) (loanChartData R) ∧
  Forall2 (projects (Some "Types of Poultry Rearing") "# of Birds" "birds")
          (birdsBase R) (birdsChartData R) ∧
  Forall2 (projects None "Amounts of Grants" "amount")
          (grantsBase R) (grantsChartData R).
Proof.
  split_and!.
  - intros r Hr. rewrite elem_of_loanBase, elem_of_birdsBase, elem_of_grantsBase, Hr.
    split_and!; [intros (_ & He & _); done | tauto | tauto].
  - intros r name Hr He. rewrite elem_of_loanBase, Hr. simpl. rewrite He. intros (_ & ? & _). done.
  - intros r Hr. rewrite elem_of_loanBase.
    destruct Hr as [-> | [-> | ->]]; intros (_ & _ & ?); done.
  - apply elem_of_birdsBase.
  - apply elem_of_grantsBase.
  - apply elem_of_loanBase.
  - unfold loanChartData. apply Forall2_fmap_r, Forall_Forall2_diag, Forall_forall.
    intros r _. unfold projects. split_and!; [done | | done | ].
    + eexists. split_and!; [done | apply Number_or_zero_missing | ].
      intros z ->. apply Number_or_zero_number.
    + rewrite !dom_insert_L, dom_singleton_L. set_solver.
  - unfold birdsChartData. apply Forall2_fmap_r, Forall_Forall2_diag, Forall_forall.
    intros r _. unfold projects. split_and!; [done | | done | ].
    + eexists. split_and!; [done | apply Number_or_zero_missing | ].
      intros z ->. apply Number_or_zero_number.
    + rewrite !dom_insert_L, dom_singleton_L. set_solver.
  - unfold grantsChartData. apply Forall2_fmap_r, Forall_Forall2_diag, Forall_forall.
    intros r _. unfold projects. split_and!; [done | | done | ].
    + eexists. split_and!; [done | apply Number_or_zero_missing | ].
      intros z ->. apply Number_or_zero_number.
    + rewrite !dom_insert_L, dom_singleton_L. set_solver.
Qed.

End ChartFacts.

(** C3, as stated, fails on the grants chart: its points have a branch and
    an amount and no category. *)
Lemma grants_point_has_no_category :
  let grants : list row :=
    [ {[ "Branch Name" := VStr "A"; "Amounts of Grants" := VNum (Num 100) ]} ] in
  @grantsChartData plain_host grants
  = [ {[ "branch" := VStr "A"; "amount" := VNum (Num 100) ]} ] ∧
  ∀ p : point, p ∈ @grantsChartData plain_host grants → p !! "type" = None ∧ size p = 2%nat.
Proof.
  split; [vm_compute; done|].
  intros p Hp. apply list_elem_of_singleton in Hp as ->. vm_compute. done.
Qed.

(** ** The custom month filter *)

Section MonthFilterFacts.
Context `{Host}.
Import MonthFilter.

(** No handler touches what [useReports] holds. *)
Lemma handle_fixed (s : state) (e : event) :
  data (handle s e) = data s ∧ loading (handle s e) = loading s.
Proof.
  destruct e as [m|fetch|response|]; simpl; try done.
  - unfold applyLoanMonth. destruct (applyLoanMonth_url s) as [url|]; [|done].
    by destruct (fetch url) as [[]|[]].
  - by destruct response as [[]|[]].
Qed.

Lemma run_fixed (s : state) (es : list event) :
  data (run s es) = data s ∧ loading (run s es) = loading s.
Proof.
  revert s. induction es as [|e es IH]; intros s; [done|].
  unfold run in *. simpl. destruct (IH (handle s e)) as [-> ->]. apply handle_fixed.
Qed.

(** The rendering reads everything but the console. *)
Lemma App_ext (s1 s2 : state) :
  data s1 = data s2 → loading s1 = loading s2 →
  loanCustomRows s1 = loanCustomRows s2 → loanMonth s1 = loanMonth s2 →
  loanMonthLabel s1 = loanMonthLabel s2 →
  App s1 = App s2.
Proof. destruct s1, s2; simpl. by intros -> -> -> -> ->. Qed.

Lemma body_DataTable title (R : list row) columns subtitle show :
  body (DataTable title (Some R) columns subtitle show) = map (body_row columns) R.
Proof. by destruct R. Qed.

(** The dashboard, when [App] returns one. *)
Lemma App_Wrap (s : state) (v : dashboard) :
  App s = Return (Wrap v) →
  ∃ shown poultry_a grants_a,
    loading s = false ∧ loanRows s = Some shown ∧
    poultry (data s) = Some poultry_a ∧ grants (data s) = Some grants_a ∧
    loanTable v =
      DataTable "📊 Branch Wise Loan Disbursement" (Some shown) loanColumns
        (if string_truthy (loanMonthLabel s)
         then Some ("Month: " +:+ loanMonthLabel s) else None) (Some false) ∧
    chart_data (loanChart v) = loanChartData shown ∧
    poultryTable v =
      DataTable "🐔 Types of Poultry Rearing" (Some poultry_a) poultryColumns None None ∧
    grantsTable v =
      DataTable "💠 MEs Grants Information" (Some grants_a) grantsColumns None None.
Proof.
  unfold App. destruct (loading s); [done|].
  destruct (loanRows s) as [shown|]; [|done].
  destruct (poultry (data s)) as [p|]; [|done].
  destruct (grants (data s)) as [g|]; [|done].
  cbn. intros [= <-]. by exists shown, p, g.
Qed.

(** C4.  Whatever was fetched at start-up and whatever has happened since
    (month changes, applies with any responses, responses arriving late,
    earlier clears), after "clear" the loan panel shows the fixed loan rows,
    the month selector is empty and the label is empty: the whole rendering
    is the one of the freshly loaded dashboard. *)
Theorem clear_restores_fixed_loan (d : reports) (es : list event) :
  let s := clearLoanMonth (run (loaded d) es) in
  loanRows s = loan d ∧
  loanCustomRows s = None ∧
  loanMonth s = "" ∧
  loanMonthLabel s = "" ∧
  App s = App (loaded d).
Proof.
  destruct (run_fixed (loaded d) es) as [Hd Hl].
  split_and!; try done.
  - unfold loanRows. simpl. by rewrite Hd.
  - apply App_ext; simpl; by rewrite ?Hd, ?Hl.
Qed.

(** C5.  When something raises inside the [try] block of "apply" ([new URL]
    raises, the fetch or the parsing of its body fails, or the body is
    [null]), "apply" removes the override, so that the loan panel shows the
    fixed rows, and empties the label; the error goes to the console and the
    rendering is the one of the state without override and label, whatever
    the error was. *)
Theorem apply_failure_reverts_to_fixed
    (s : state) (fetch : URL → settled loan_body) :
  try_raises fetch s = true →
  let s' := applyLoanMonth fetch s in
  loanCustomRows s' = None ∧
  loanMonthLabel s' = "" ∧
  loanRows s' = loan (data s) ∧
  loanMonth s' = loanMonth s ∧
  data s' = data s ∧
  (∃ e, console s' = console s ++ [e]) ∧
  App s' = App (setLoanMonthLabel "" (setLoanCustomRows None s)).
Proof.
  unfold try_raises, applyLoanMonth. destruct (applyLoanMonth_url s) as [url|].
  - destruct (fetch url) as [[]|[|]]; [| |done| ]; intros _;
      (split_and!; try done; by eexists).
  - intros _. split_and!; try done. by eexists.
Qed.

(** What [searchParams.set] leaves behind: one parameter of that name,
    holding the value, and the other parameters as they were. *)
Lemma set_first_named (name v : string) (params : list (string * string)) :
  List.filter (λ p, String.eqb p.1 name) (set_first name v params) = [(name, v)] ∧
  List.filter (λ p, negb (String.eqb p.1 name)) (set_first name v params)
  = List.filter (λ p, negb (String.eqb p.1 name)) params.
Proof.
  induction params as [|p rest [IH1 IH2]]; simpl.
  - by rewrite String.eqb_refl.
  - destruct (String.eqb p.1 name) eqn:Hp; simpl.
    + rewrite String.eqb_refl. simpl. clear IH1 IH2. split.
      * f_equal. induction rest as [|q rest IH]; [done|]. simpl.
        destruct (String.eqb q.1 name) eqn:Hq; simpl; [done|]. by rewrite Hq.
      * induction rest as [|q rest IH]; [done|]. simpl.
        destruct (String.eqb q.1 name) eqn:Hq; simpl; [done|]. rewrite Hq. simpl.
        by f_equal.
    + rewrite Hp. simpl. by rewrite IH1, IH2.
Qed.

(** C6.  When [new URL] accepts [API_BASE/reports/loan], "apply" fetches
    that URL, with the parameter [month] set to the selected month exactly
    when that month is not empty.  When the request succeeds with the body
    [resp], the override becomes [resp.rows], or the empty sequence when the
    body has none, and the label becomes [resp.month_label], or the empty
    string when the body has none. *)
Theorem apply_success
    (s : state) (fetch : URL → settled loan_body) (url : URL) (resp : loan_body) :
  new_URL (API_BASE +:+ "/reports/loan") = Some url →
  fetch (match loanMonth s with
         | EmptyString => url
         | m => searchParams_set "month" m url
         end) = Fulfilled (Some resp) →
  let s' := applyLoanMonth fetch s in
  (∀ m, href (searchParams_set "month" m url) = href url ∧
        List.filter (λ p, String.eqb p.1 "month")
          (searchParams (searchParams_set "month" m url)) = [("month"%string, m)] ∧
        List.filter (λ p, negb (String.eqb p.1 "month"))
          (searchParams (searchParams_set "month" m url))
        = List.filter (λ p, negb (String.eqb p.1 "month")) (searchParams url)) ∧
  loanCustomRows s' = Some (default [] (rows resp)) ∧
  loanMonthLabel s' = default ""%string (month_label resp) ∧
  loanRows s' = Some (default [] (rows resp)) ∧
  loanMonth s' = loanMonth s ∧
  data s' = data s ∧
  console s' = console s.
Proof.
  intros Hu Hf. unfold applyLoanMonth, applyLoanMonth_url. rewrite Hu.
  replace (if string_truthy (loanMonth s)
           then searchParams_set "month" (loanMonth s) url else url)
    with (match loanMonth s with
          | EmptyString => url
          | m => searchParams_set "month" m url
          end) by (by destruct (loanMonth s)).
  rewrite Hf. simpl. split_and!; try done.
  - intros m. split; [done|]. apply set_first_named.
  - destruct (month_label resp) as [[|]|]; done.
Qed.

(** C7.  In every state reached from the loaded dashboard, the loan panel
    shows one dataset: with an override, the rows of the table and the
    points of the chart are those of the override alone, whatever the fixed
    rows are; without one, the dashboard shows the fixed loan rows (and
    raises when the response had none). *)
Theorem loan_panel_shows_one_dataset
    (fixed : option (list row)) (p g : list row) (es : list event) :
  let s := run (loaded {| loan := fixed; poultry := Some p; grants := Some g |}) es in
  match loanCustomRows s, fixed with
  | Some custom, _ =>
      ∃ v, App s = Return (Wrap v) ∧
           loanRows s = Some custom ∧
           body (loanTable v) = map (body_row loanColumns) custom ∧
           chart_data (loanChart v) = loanChartData custom
  | None, Some fixed_rows =>
      ∃ v, App s = Return (Wrap v) ∧
           loanRows s = Some fixed_rows ∧
           body (loanTable v) = map (body_row loanColumns) fixed_rows ∧
           chart_data (loanChart v) = loanChartData fixed_rows
  | None, None => App s = Throw "TypeError"
  end.
Proof.
  intros s.
  destruct (run_fixed (loaded {| loan := fixed; poultry := Some p; grants := Some g |}) es)
    as [Hd Hl]. fold s in Hd, Hl. simpl in Hd, Hl.
  unfold App, loanRows. rewrite Hd, Hl. simpl.
  destruct (loanCustomRows s) as [custom|]; [|destruct fixed as [fixed_rows|]]; cbn.
  - eexists. split; [reflexivity|]. split_and!; try done. by destruct custom.
  - eexists. split; [reflexivity|]. split_and!; try done. by destruct fixed_rows.
  - done.
Qed.

End MonthFilterFacts.

(** C5, witness: a rejected fetch while the May 2024 override is shown; and
    the same state on a host whose API base is a path, where [new URL]
    raises and nothing is fetched. *)
Lemma apply_failure_reverts_to_fixed_witness :
  let s := @MonthFilter.run plain_host
             (MonthFilter.loaded example_reports) example_events in
  let rejecting : URL → settled loan_body := λ _, Rejected FetchRejected in
  let answering : URL → settled loan_body := λ _, Fulfilled (Some may_2024) in
  MonthFilter.loanCustomRows s = rows may_2024 ∧
  @MonthFilter.try_raises plain_host rejecting s = true ∧
  MonthFilter.loanCustomRows (@MonthFilter.applyLoanMonth plain_host rejecting s) = None ∧
  MonthFilter.loanMonthLabel (@MonthFilter.applyLoanMonth plain_host rejecting s)
  = ""%string ∧
  MonthFilter.loanRows (@MonthFilter.applyLoanMonth plain_host rejecting s)
  = loan example_reports ∧
  @MonthFilter.try_raises relative_host answering s = true ∧
  MonthFilter.loanCustomRows (@MonthFilter.applyLoanMonth relative_host answering s) = None.
Proof.
  intros s rejecting answering.
  pose proof (@apply_failure_reverts_to_fixed plain_host s rejecting eq_refl)
    as (Hc & Hl & Hr & _).
  pose proof (@apply_failure_reverts_to_fixed relative_host s answering eq_refl)
    as (Hc' & _).
  split_and!; [reflexivity | reflexivity | exact Hc | exact Hl | exact Hr
              | reflexivity | exact Hc'].
Defined.

(** C6, witness: month 2024-05 applied on the loaded dashboard. *)
Lemma apply_success_witness :
  let s := MonthFilter.setLoanMonth "2024-05" (MonthFilter.loaded example_reports) in
  let fetch : URL → settled loan_body :=
    λ u, match searchParams u with
         | [("month"%string, "2024-05"%string)] => Fulfilled (Some may_2024)
         | _ => Rejected FetchRejected
         end in
  let s' := @MonthFilter.applyLoanMonth plain_host fetch s in
  MonthFilter.loanCustomRows s' = rows may_2024 ∧
  MonthFilter.loanMonthLabel s' = "May 2024"%string.
Proof.
  intros s fetch s'.
  pose proof (@apply_success plain_host s fetch
                {| href := "http://localhost:8000/reports/loan"; searchParams := [] |}
                may_2024 eq_refl eq_refl) as (_ & Hc & Hl & _).
  split; [exact Hc | exact Hl].
Defined.

(** C7, witness: with the May 2024 override the one row of the override is
    shown and none of the three fixed rows; after Clear, the three fixed
    rows. *)
Lemma loan_panel_shows_one_dataset_witness :
  (∃ v, @MonthFilter.App plain_host
          (@MonthFilter.run plain_host (MonthFilter.loaded example_reports)
             example_events) = Return (MonthFilter.Wrap v) ∧
        body (MonthFilter.loanTable v)
        = map (body_row (@loanColumns plain_host)) (default [] (rows may_2024))) ∧
  (∃ v, @MonthFilter.App plain_host
          (@MonthFilter.run plain_host (MonthFilter.loaded example_reports)
             (example_events ++ [MonthFilter.Clear_onClick])) = Return (MonthFilter.Wrap v) ∧
        body (MonthFilter.loanTable v)
        = map (body_row (@loanColumns plain_host)) (default [] (loan example_reports))).
Proof.
  split.
  - destruct (@loan_panel_shows_one_dataset plain_host (loan example_reports)
                (default [] (poultry example_reports)) (default [] (grants example_reports))
                example_events) as (v & Hv & _ & Hb & _).
    exists v. split; [exact Hv | exact Hb].
  - destruct (@loan_panel_shows_one_dataset plain_host (loan example_reports)
                (default [] (poultry example_reports)) (default [] (grants example_reports))
                (example_events ++ [MonthFilter.Clear_onClick])) as (v & Hv & _ & Hb & _).
    exists v. split; [exact Hv | exact Hb].
Defined.

(** ** Rendering the dashboard *)

Section DashboardFacts.
Context `{Host}.
Import MonthFilter.

(** A table called with the footer suppressed has none. *)
Lemma footer_suppressed title rows columns subtitle :
  footer (DataTable title rows columns subtitle (Some false)) = None.
Proof. by destruct rows as [[|r0 R]|]. Qed.

(** A table called without [showFooterTotals] has a footer exactly when
    some summable column holds a number in the first row. *)
Lemma footer_default title rows columns subtitle :
  is_Some (footer (DataTable title rows columns subtitle None))
  ↔ ∃ rows0 rest c,
      rows = Some (rows0 :: rest) ∧ c ∈ columns ∧ totalled rows0 c = true.
Proof.
  destruct rows as [[|r0 R]|]; cbn [DataTable footer tfoot default andb].
  - split; [by intros [??]|]. by intros (? & ? & ? & ? & _).
  - destruct (negb _) eqn:Hn.
    + apply totals_nonempty in Hn as (c & ? & ?). split; [|by eauto].
      intros _. by exists r0, R, c.
    + split; [by intros [??]|]. intros (r0' & R' & c & [= <- <-] & Hc & Ht).
      assert (negb (size (totals r0 (r0 :: R) columns) =? 0)%nat = true)
        by (apply totals_nonempty; eauto).
      congruence.
  - split; [by intros [??]|]. by intros (? & ? & ? & ? & _).
Qed.

(** C8.  A response of the fixed-reports endpoint without the key
    [poultry]: the loader stores the object as it is, [poultry] reads as
    [undefined], and rendering raises a [TypeError], in both revisions. *)
Theorem omitted_dataset_raises (l g : list row) :
  let d := {| loan := Some l; poultry := None; grants := Some g |} in
  poultry (data (loaded d)) = None ∧
  App (loaded d) = Throw "TypeError" ∧
  poultry (Starter.data (Starter.useReports_effect (Fulfilled (Some d)) Starter.initial))
  = None ∧
  Starter.App (Starter.useReports_effect (Fulfilled (Some d)) Starter.initial)
  = Throw "TypeError".
Proof. done. Qed.

(** With the three keys present the dashboard is rendered, in every state
    reached from the loaded one. *)
Lemma complete_response_renders (l p g : list row) (es : list event) :
  ∃ v, App (run (loaded {| loan := Some l; poultry := Some p; grants := Some g |}) es)
       = Return (Wrap v).
Proof.
  set (d := {| loan := Some l; poultry := Some p; grants := Some g |}).
  destruct (run_fixed (loaded d) es) as [Hd Hl].
  unfold App, loanRows. rewrite Hd, Hl. simpl.
  destruct (loanCustomRows _); eexists; reflexivity.
Qed.

(** C9.  A table given an empty row sequence renders the "No data"
    placeholder, with no table and no footer, and raises nothing; when the
    three fixed datasets are empty the three panels are placeholders and the
    three charts have no points, in both revisions. *)
Theorem empty_rows_render_placeholder :
  (∀ title columns subtitle showFooterTotals,
     DataTable title (Some []) columns subtitle showFooterTotals = NoData) ∧
  (∀ title columns, Starter.DataTable title (Some []) columns = NoData) ∧
  footer NoData = None ∧ body NoData = [] ∧
  (∃ v,
     App (loaded {| loan := Some []; poultry := Some []; grants := Some [] |})
     = Return (Wrap v) ∧
     loanTable v = NoData ∧ poultryTable v = NoData ∧ grantsTable v = NoData ∧
     chart_data (loanChart v) = [] ∧ chart_data (birdsChart v) = [] ∧
     chart_data (grantsChart v) = []) ∧
  (∃ v,
     Starter.App
       (Starter.useReports_effect
          (Fulfilled (Some {| loan := Some []; poultry := Some []; grants := Some [] |}))
          Starter.initial)
     = Return (Starter.Wrap v) ∧
     Starter.loanTable v = NoData ∧ Starter.poultryTable v = NoData ∧
     Starter.grantsTable v = NoData ∧
     chart_data (Starter.loanChart v) = [] ∧ chart_data (Starter.birdsChart v) = [] ∧
     chart_data (Starter.grantsChart v) = []).
Proof.
  split_and!; try done.
  - eexists. split; [reflexivity|]. done.
  - eexists. split; [reflexivity|]. done.
Qed.

End DashboardFacts.

(** ** Further properties of the table renderer *)

(** Every character of a substring occurs in the string. *)
Lemma substring_chars (s : string) (n m : nat) (c : ascii) :
  In c (list_ascii_of_string (substring n m s)) → In c (list_ascii_of_string s).
Proof.
  revert n m. induction s as [|a s IH]; intros n m.
  - destruct n, m; simpl; tauto.
  - destruct n as [|n].
    + destruct m as [|m]; simpl; [tauto|]. intros [?|?]; [by left|right; eauto].
    + simpl. intros ?. right. eauto.
Qed.

Lemma endsWith_chars (s suffix : string) (c : ascii) :
  endsWith s suffix = true →
  In c (list_ascii_of_string suffix) → In c (list_ascii_of_string s).
Proof.
  unfold endsWith. destruct (_ <=? _)%nat; [|done].
  rewrite String.eqb_eq. intros <-. apply substring_chars.
Qed.

(** The decimal notation of a number is made of digits. *)
Lemma string_of_uint_chars (d : Decimal.uint) (c : ascii) :
  In c (list_ascii_of_string (NilEmpty.string_of_uint d)) →
  In c (list_ascii_of_string "0123456789").
Proof.
  induction d; simpl; try tauto; intros [<-|?]; simpl in *; tauto.
Qed.

Lemma NumberToString_no_l (n : number) :
  ¬ In "l"%char (list_ascii_of_string (NumberToString n)).
Proof.
  assert (Hd : ∀ d, ¬ In "l"%char (list_ascii_of_string (NilEmpty.string_of_uint d))).
  { intros d Hin. apply string_of_uint_chars in Hin. simpl in Hin.
    repeat (destruct Hin as [Hin|Hin]; [discriminate Hin|]). done. }
  assert (Hz : ∀ d, ¬ In "l"%char (list_ascii_of_string (NilZero.string_of_uint d))).
  { intros d. destruct d; try apply Hd. simpl. intros [?|[]]. discriminate. }
  destruct n as [|z|[]]; simpl.
  - intros Hin. repeat (destruct Hin as [Hin|Hin]; [discriminate Hin|]). done.
  - unfold NilZero.string_of_int. destruct (Z.to_int z); [apply Hz|].
    simpl. intros [?|?]; [discriminate|]. by eapply Hz.
  - intros Hin. repeat (destruct Hin as [Hin|Hin]; [discriminate Hin|]). done.
  - intros Hin. repeat (destruct Hin as [Hin|Hin]; [discriminate Hin|]). done.
Qed.

(** Only a branch name that is a string can end in " Total". *)
Lemma subtotal_name_is_string (v : value) :
  endsWith (ToString v) " Total" = true → ∃ name, v = VStr name.
Proof.
  intros He. destruct v as [| |[]|n|s]; try done; [|by eauto].
  exfalso. apply (NumberToString_no_l n).
  apply (endsWith_chars _ _ _ He). simpl. tauto.
Qed.

(** X1.  Which rows are marked: a row gets the subtotal background exactly
    when its branch name is a string ending in " Total", weight 800 exactly
    when it is the string "Grand Total", and no row gets any other
    background; a branch name that is missing, null, a boolean or a number
    gives an unmarked row. *)
Theorem row_markers (r : row) :
  (background (row_style r) = Some "#fffbe6"%string
   ↔ ∃ name, field r "Branch Name" = VStr name ∧ endsWith name " Total" = true) ∧
  (background (row_style r) = None
   ↔ ¬ ∃ name, field r "Branch Name" = VStr name ∧ endsWith name " Total" = true) ∧
  (fontWeight (row_style r) = Some 800%Z
   ↔ field r "Branch Name" = VStr "Grand Total") ∧
  (fontWeight (row_style r) = None
   ↔ field r "Branch Name" ≠ VStr "Grand Total") ∧
  ((∀ name, field r "Branch Name" ≠ VStr name) →
   row_style r = {| background := None; fontWeight := None |}).
Proof.
  assert (Hs : endsWith (ToString (field r "Branch Name")) " Total" = true
               ↔ ∃ name, field r "Branch Name" = VStr name ∧ endsWith name " Total" = true).
  { split.
    - intros He. destruct (subtotal_name_is_string _ He) as [name Hn].
      exists name. by rewrite Hn in He.
    - intros (name & -> & He). done. }
  unfold row_style. simpl.
  destruct (endsWith (ToString _) _) eqn:He.
  - destruct (proj1 Hs eq_refl) as (name & Hn & Hname).
    split_and!.
    + split; [eauto|done].
    + split; [done|]. intros Hno. destruct Hno. eauto.
    + destruct (strict_eq_str _ _) eqn:Hg.
      * by rewrite <- strict_eq_str_true, Hg.
      * rewrite <- strict_eq_str_true, Hg. split; done.
    + destruct (strict_eq_str _ _) eqn:Hg.
      * rewrite <- strict_eq_str_true, Hg. split; [done|]. intros Hne. by destruct Hne.
      * rewrite <- strict_eq_str_true, Hg. split; done.
    + intros Hno. by destruct (Hno name).
  - assert (Hg : strict_eq_str (field r "Branch Name") "Grand Total" = false).
    { destruct (strict_eq_str _ _) eqn:Hg; [|done].
      by rewrite (grand_total_is_subtotal r Hg) in He. }
    rewrite Hg. split_and!.
    + split; [done|]. intros Hex. apply Hs in Hex. done.
    + split; [|done]. intros _ Hex. apply Hs in Hex. done.
    + rewrite <- strict_eq_str_true, Hg. split; done.
    + rewrite <- strict_eq_str_true, Hg. split; done.
    + done.
Qed.

Section RendererMore.
Context `{Host}.

(** X2.  A rendered table is rectangular and shows every row it is given,
    subtotal and grand-total rows included: one header per column, one body
    row per input row in the same order, one cell per column in every body
    row and in the footer row when there is one. *)
Theorem table_is_rectangular
    (title : string) (R : list row) (columns : list column)
    (subtitle : option string) (showFooterTotals : option bool) (t : table) :
  MonthFilter.DataTable title (Some R) columns subtitle showFooterTotals = Table t →
  R ≠ [] ∧
  h2 t = title ∧
  thead t = map header columns ∧
  length (tbody t) = length R ∧
  (∀ i r, R !! i = Some r →
     ∃ row_i, tbody t !! i = Some row_i ∧ style row_i = row_style r ∧
              length (tds row_i) = length columns ∧
              ∀ j c, columns !! j = Some c → tds row_i !! j = Some (td c (field r (key c)))) ∧
  (∀ foot, tfoot t = Some foot → length foot = length columns).
Proof.
  destruct R as [|r0 R]; [done|]. cbn [MonthFilter.DataTable]. intros [= <-].
  cbn [h2 thead tbody tfoot]. split_and!; try done.
  - apply (length_map (body_row columns) (r0 :: R)).
  - intros i r Hr. exists (body_row columns r). split_and!.
    + change (body_row columns r0 :: map (body_row columns) R)
        with (body_row columns <$> r0 :: R).
      by rewrite list_lookup_fmap, Hr.
    + done.
    + apply length_map.
    + intros j c Hc. simpl. by rewrite list_lookup_fmap, Hc.
  - intros foot. destruct (_ && _); [|done]. intros [= <-]. apply length_map.
Qed.

(** X3.  In a footer row, a summable column whose value in the first row is
    not of type number has no total: its cell is its formatter applied to
    [undefined] (with [NumberFmt], the rendering of 0), whatever the other
    rows hold. *)
Theorem footer_cell_without_total
    (title : string) (rows0 : row) (R : list row) (columns : list column)
    (subtitle : option string) (showFooterTotals : option bool)
    (foot : list value) (i : nat) (C : column) :
  footer (MonthFilter.DataTable title (Some (rows0 :: R)) columns subtitle showFooterTotals)
  = Some foot →
  columns !! i = Some C →
  total C = true →
  typeof_number (field rows0 (key C)) = false →
  foot !! i = Some (td C VUndef) ∧
  (format C = Some NumberFmt → foot !! i = Some (VStr (NumberToLocaleString (Num 0)))).
Proof.
  cbn [MonthFilter.DataTable footer tfoot]. destruct (_ && _); [|done].
  intros [= <-] Hi Htot Hnum.
  assert (Hnone : totals rows0 (rows0 :: R) columns !! key C = None).
  { apply eq_None_not_Some. rewrite totals_lookup_is_Some.
    intros (c & _ & Hk & Ht). unfold totalled in Ht. rewrite Hk, Hnum in Ht.
    by rewrite andb_false_r in Ht. }
  assert (Hcell : map (foot_td (totals rows0 (rows0 :: R) columns)) columns !! i
                  = Some (td C VUndef)).
  { rewrite list_lookup_fmap, Hi. simpl. unfold foot_td, totals_at. by rewrite Htot, Hnone. }
  split; [done|]. intros Hf. rewrite Hcell. unfold td. by rewrite Hf.
Qed.

(** X4.  In a column formatted with [NumberFmt], a row without the field (or
    holding [null]) shows the same cell as a row holding 0, and a string is
    shown as it is. *)
Theorem NumberFmt_cell (c : column) (r : row) :
  format c = Some NumberFmt →
  (field r (key c) = VUndef ∨ field r (key c) = VNull →
   td c (field r (key c)) = td c (VNum (Num 0))) ∧
  (∀ s, field r (key c) = VStr s → td c (field r (key c)) = VStr s) ∧
  (∀ n, field r (key c) = VNum n → td c (field r (key c)) = VStr (NumberToLocaleString n)).
Proof.
  intros Hf. unfold td. rewrite Hf. split_and!.
  - by intros [-> | ->].
  - by intros s ->.
  - by intros n ->.
Qed.

Lemma sum_of_column_app (R1 R2 : list row) (C : string) :
  sum_of_column (R1 ++ R2) C = (sum_of_column R1 C + sum_of_column R2 C)%Z.
Proof. induction R1 as [|r R1 IH]; simpl; [done|]. rewrite IH. lia. Qed.

(** X5.  The total of a column is taken over all rows given to the table,
    summary rows included: a closing row that repeats the total of the rows
    before it makes the total that number added to itself; and as long as
    no addition rounds, the total of two lists of rows put together is the
    sum of the two exact sums. *)
Theorem total_counts_summary_rows (R : list row) (summary : row) (C : string) :
  ToNumber (field summary C) = reduce_sum R C →
  reduce_sum (R ++ [summary]) C = number_add (reduce_sum R C) (reduce_sum R C) ∧
  ∀ R1 R2, sums_stay_safe 0 (R1 ++ R2) C = true →
           reduce_sum (R1 ++ R2) C = Num (sum_of_column R1 C + sum_of_column R2 C).
Proof.
  intros Hs. split.
  - unfold reduce_sum at 1. rewrite fold_left_app. cbn [fold_left].
    fold (reduce_sum R C). rewrite Hs.
    destruct (reduce_sum R C) as [|z|n]; [done| |done].
    unfold number_or_zero. simpl. by destruct (Z.eqb_spec z 0) as [->|_].
  - intros R1 R2 Hsafe. by rewrite (reduce_sum_spec _ _ Hsafe), sum_of_column_app.
Qed.

(** X6.  The number a chart point holds, [Number(v || 0)], is [NaN] exactly
    when the field is a non-empty string that does not convert to a number;
    the table's total, [Number(v) || 0], counts that same value as 0, and
    the two agree on every other value (the empty string, which the chart
    takes as 0 without converting it, left aside). *)
Theorem chart_value_NaN (v : value) :
  (ToNumber (or_else v (VNum (Num 0))) = NaN
   ↔ ∃ s, v = VStr s ∧ s ≠ ""%string ∧ StringToNumber s = NaN) ∧
  (ToNumber (or_else v (VNum (Num 0))) ≠ NaN → v ≠ VStr "" →
   ToNumber (or_else v (VNum (Num 0))) = number_or_zero (ToNumber v)) ∧
  ToNumber (or_else (VStr "") (VNum (Num 0))) = Num 0.
Proof.
  split_and!; [split| |done].
  - intros Hn. destruct v as [| |[]|[|z|n]|[|a s]]; unfold or_else in Hn; simpl in Hn;
      try done.
    + by destruct (Z.eqb_spec z 0).
    + by exists (String a s).
  - intros (s & -> & Hne & Hs). by destruct s.
  - intros Hn Hne. destruct v as [| |[]|[|z|n]|[|a s]]; unfold or_else in *; simpl in *;
      try done.
    + unfold number_or_zero. simpl. destruct (z =? 0)%Z eqn:Ez; [apply Z.eqb_eq in Ez; by subst|done].
    + unfold number_or_zero.
      destruct (StringToNumber (String a s)) as [|z|n]; [done| |done]. simpl.
      destruct (z =? 0)%Z eqn:Ez; [apply Z.eqb_eq in Ez; by subst|done].
Qed.

End RendererMore.

(** ** Further properties of the dashboard *)

Section DashboardMore.
Context `{Host}.
Import MonthFilter.

(** X7.  Before any month is applied the revision with the month filter
    renders, beside the loan table, what the starter renders: the same
    poultry and grants tables, the same three charts and export link, with
    an empty month input and no Clear button; it raises exactly when the
    starter does.  The table of the starter is the table of the revision
    called without [subtitle] and [showFooterTotals]. *)
Theorem revisions_agree_on_load (d : reports) :
  (∀ title rows columns,
     Starter.DataTable title rows columns = DataTable title rows columns None None) ∧
  match Starter.App (starter_loaded d), App (loaded d) with
  | Return (Starter.Wrap v1), Return (Wrap v2) =>
      poultryTable v2 = Starter.poultryTable v1 ∧
      grantsTable v2 = Starter.grantsTable v1 ∧
      loanChart v2 = Starter.loanChart v1 ∧
      birdsChart v2 = Starter.birdsChart v1 ∧
      grantsChart v2 = Starter.grantsChart v1 ∧
      export_href v2 = Starter.export_href v1 ∧
      month_controls v2 = {| input_value := ""; Clear_button := false |}
  | Throw e1, Throw e2 => e1 = e2
  | _, _ => False
  end.
Proof.
  split; [by intros title [[|r0 R]|] columns|].
  destruct d as [[l|] [p|] [g|]]; try done.
Qed.

(** X8.  While the fixed reports are being fetched only the loading
    placeholder is rendered.  A fetch that fails turns the placeholder off
    and leaves the initial empty datasets: the dashboard is the one of a
    response with three empty datasets, with three "No data" panels and no
    sign of the failure.  A body that is JSON [null] makes rendering raise. *)
Theorem failed_initial_fetch_shows_no_data (f : failure) :
  let empty := {| loan := Some []; poultry := Some []; grants := Some [] |} in
  App initial = Return Loading ∧
  Starter.App Starter.initial = Return Starter.Loading ∧
  App (useReports_effect (Rejected f) initial) = App (loaded empty) ∧
  Starter.App (Starter.useReports_effect (Rejected f) Starter.initial)
  = Starter.App (starter_loaded empty) ∧
  (∃ v, App (useReports_effect (Rejected f) initial) = Return (Wrap v) ∧
        loanTable v = NoData ∧ poultryTable v = NoData ∧ grantsTable v = NoData) ∧
  App (useReports_effect (Fulfilled None) initial) = Throw "TypeError" ∧
  Starter.App (Starter.useReports_effect (Fulfilled None) Starter.initial)
  = Throw "TypeError".
Proof.
  split_and!; try done.
  eexists. split; [reflexivity|done].
Qed.

(** X9.  After an apply that succeeded, on a dashboard that is shown, the
    loan chart holds the points of the rows of the response and of nothing
    else, the Clear button is offered and the month input keeps its value;
    a response without rows leaves the chart without points, the Clear
    button still offered. *)
Theorem applied_month_is_displayed
    (s : state) (fetch : URL → settled loan_body) (url : URL) (resp : loan_body)
    (p g : list row) :
  applyLoanMonth_url s = Some url →
  fetch url = Fulfilled (Some resp) →
  loading s = false →
  poultry (data s) = Some p →
  grants (data s) = Some g →
  ∃ v, App (applyLoanMonth fetch s) = Return (Wrap v) ∧
       chart_data (loanChart v) = loanChartData (default [] (rows resp)) ∧
       month_controls v = {| input_value := loanMonth s; Clear_button := true |} ∧
       (default [] (rows resp) = [] → chart_data (loanChart v) = []).
Proof.
  intros Hu Hf Hl Hp Hg. unfold applyLoanMonth. rewrite Hu, Hf.
  unfold App, loanRows. simpl. rewrite Hl, Hp, Hg. cbn.
  eexists. split; [reflexivity|]. split_and!; try done. by intros ->.
Qed.

(** X10.  What the loan panel shows after a request settles depends on that
    response alone: of two responses, the one that settles last decides the
    override, the label and the rendering, whatever the earlier one was. *)
Theorem last_response_wins (s : state) (r1 r2 : settled loan_body) :
  let s12 := applyLoanMonth_resume r2 (applyLoanMonth_resume r1 s) in
  let s2 := applyLoanMonth_resume r2 s in
  loanCustomRows s12 = loanCustomRows s2 ∧
  loanMonthLabel s12 = loanMonthLabel s2 ∧
  loanMonth s12 = loanMonth s ∧
  App s12 = App s2.
Proof.
  assert (Hfix : ∀ r s0, data (applyLoanMonth_resume r s0) = data s0 ∧
                         loading (applyLoanMonth_resume r s0) = loading s0 ∧
                         loanMonth (applyLoanMonth_resume r s0) = loanMonth s0)
    by (by intros [[]|[]] s0).
  assert (Hset : ∀ s0 s1, loanCustomRows (applyLoanMonth_resume r2 s0)
                          = loanCustomRows (applyLoanMonth_resume r2 s1) ∧
                          loanMonthLabel (applyLoanMonth_resume r2 s0)
                          = loanMonthLabel (applyLoanMonth_resume r2 s1))
    by (by destruct r2 as [[]|[]]).
  intros s12 s2. subst s12 s2.
  destruct (Hset (applyLoanMonth_resume r1 s) s) as [Hc Hl].
  destruct (Hfix r2 (applyLoanMonth_resume r1 s)) as (Hd2 & Hl2 & Hm2).
  destruct (Hfix r1 s) as (Hd1 & Hl1 & Hm1).
  destruct (Hfix r2 s) as (Hd & Hlo & Hm).
  split_and!; try done; [congruence|].
  apply App_ext; congruence.
Qed.

(** X11.  Nothing that happens on the month filter touches the rest of the
    dashboard: if the loaded dashboard renders, it renders after any
    sequence of events, with the same poultry and grants tables, the same
    poultry and grants charts and the same export link. *)
Theorem month_filter_leaves_other_panels
    (d : reports) (es : list event) (v0 : dashboard) :
  App (loaded d) = Return (Wrap v0) →
  ∃ v, App (run (loaded d) es) = Return (Wrap v) ∧
       poultryTable v = poultryTable v0 ∧
       birdsChart v = birdsChart v0 ∧
       grantsTable v = grantsTable v0 ∧
       grantsChart v = grantsChart v0 ∧
       export_href v = export_href v0.
Proof.
  destruct (run_fixed (loaded d) es) as [Hd Hl].
  unfold App, loanRows. rewrite Hd, Hl. simpl.
  destruct (loan d) as [l|]; [|done].
  destruct (poultry d) as [p|]; [|done].
  destruct (grants d) as [g|]; [|done].
  cbn. intros [= <-].
  destruct (loanCustomRows _); eexists; (split; [reflexivity|done]).
Qed.

End DashboardMore.

(** X2, witness: the table of the example rows. *)
Lemma table_is_rectangular_witness :
  ∃ t, @MonthFilter.DataTable plain_host "Loan" (Some example_rows)
         (@loanColumns plain_host) None None = Table t ∧
       length (tbody t) = 3%nat ∧
       ∀ foot, tfoot t = Some foot → length foot = 5%nat.
Proof.
  eexists.
  pose proof (@table_is_rectangular plain_host "Loan" example_rows
                (@loanColumns plain_host) None None _ eq_refl) as (_ & _ & _ & Hb & _ & Hf).
  split_and!; [reflexivity | exact Hb | exact Hf].
Defined.

(** X3, witness: the first row holds a count and no amount. *)
Lemma footer_cell_without_total_witness :
  let rows0 : row := {[ "Branch Name" := VStr "A"; "Number on MEs" := VNum (Num 2) ]} in
  let R : list row :=
    [ {[ "Branch Name" := VStr "B"; "Number on MEs" := VNum (Num 3);
         "Amounts of Grants" := VNum (Num 100) ]} ] in
  ∃ foot,
    footer (@MonthFilter.DataTable plain_host "Grants" (Some (rows0 :: R))
              (@grantsColumns plain_host) None None) = Some foot ∧
    foot !! 3%nat = Some (VStr "0").
Proof.
  intros rows0 R. eexists.
  pose proof (@footer_cell_without_total plain_host "Grants" rows0 R
                (@grantsColumns plain_host) None None _ 3
                {| key := "Amounts of Grants"; header := "Amounts of Grants"; total := true;
                   format := Some (@NumberFmt plain_host) |}
                eq_refl eq_refl eq_refl eq_refl) as [_ Hc].
  split; [reflexivity | exact (Hc eq_refl)].
Defined.

(** X4, witness: a loan row without an amount. *)
Lemma NumberFmt_cell_witness :
  let c := {| key := "Amount of Loan"; header := "Amount of Loan"; total := true;
              format := Some (@NumberFmt plain_host) |} in
  let r : row := {[ "Branch Name" := VStr "A" ]} in
  td c (field r (key c)) = VStr "0".
Proof.
  intros c r.
  exact (proj1 (@NumberFmt_cell plain_host c r eq_refl) (or_introl eq_refl)).
Defined.

(** X5, witness: one branch row of 100 followed by a grand total of 100. *)
Lemma total_counts_summary_rows_witness :
  let R : list row := [ {[ "Branch Name" := VStr "A"; "Amount of Loan" := VNum (Num 100) ]} ] in
  let summary : row :=
    {[ "Branch Name" := VStr "Grand Total"; "Amount of Loan" := VNum (Num 100) ]} in
  @reduce_sum plain_host R "Amount of Loan" = Num 100 ∧
  @reduce_sum plain_host (R ++ [summary]) "Amount of Loan" = Num 200.
Proof.
  intros R summary. split; [reflexivity|].
  exact (proj1 (@total_counts_summary_rows plain_host R summary "Amount of Loan" eq_refl)).
Defined.

(** X9, witness: June 2024 has a label and no rows. *)
Lemma applied_month_is_displayed_witness :
  let s := MonthFilter.setLoanMonth "2024-06" (MonthFilter.loaded example_reports) in
  let fetch : URL → settled loan_body := λ _, Fulfilled (Some june_2024) in
  ∃ v, @MonthFilter.App plain_host (@MonthFilter.applyLoanMonth plain_host fetch s)
       = Return (MonthFilter.Wrap v) ∧
       chart_data (MonthFilter.loanChart v) = [] ∧
       MonthFilter.month_controls v
       = {| MonthFilter.input_value := "2024-06"; MonthFilter.Clear_button := true |}.
Proof.
  intros s fetch.
  destruct (@applied_month_is_displayed plain_host s fetch
              {| href := "http://localhost:8000/reports/loan";
                 searchParams := [("month", "2024-06")]%string |}
              june_2024
              (default [] (poultry example_reports)) (default [] (grants example_reports))
              eq_refl eq_refl eq_refl eq_refl eq_refl) as (v & Hv & _ & Hc & He).
  exists v. split_and!; [exact Hv | exact (He eq_refl) | exact Hc].
Defined.

(** X11, witness: the example reports after the May 2024 apply. *)
Lemma month_filter_leaves_other_panels_witness :
  ∃ v0 v,
    @MonthFilter.App plain_host (MonthFilter.loaded example_reports)
    = Return (MonthFilter.Wrap v0) ∧
    @MonthFilter.App plain_host
      (@MonthFilter.run plain_host (MonthFilter.loaded example_reports) example_events)
    = Return (MonthFilter.Wrap v) ∧
    MonthFilter.poultryTable v = MonthFilter.poultryTable v0 ∧
    MonthFilter.grantsTable v = MonthFilter.grantsTable v0.
Proof.
  eexists.
  destruct (@month_filter_leaves_other_panels plain_host example_reports example_events
              _ eq_refl) as (v & Hv & Hp & _ & Hg & _).
  exists v. split_and!; [reflexivity | exact Hv | exact Hp | exact Hg].
Defined.

Section FooterMore.
Context `{Host}.
Import MonthFilter.

(** X12.  Whether a table has a footer row is decided by its first row
    alone: the rows after it do not matter, and when no summable column
    holds a number in the first row there is no footer, even if every later
    row holds numbers. *)
Theorem footer_decided_by_first_row
    (title : string) (rows0 : row) (R R' : list row) (columns : list column)
    (subtitle : option string) (showFooterTotals : option bool) :
  (is_Some (footer (DataTable title (Some (rows0 :: R)) columns subtitle showFooterTotals))
   ↔ is_Some (footer (DataTable title (Some (rows0 :: R')) columns subtitle showFooterTotals))) ∧
  ((∀ c, c ∈ columns → total c = true → typeof_number (field rows0 (key c)) = false) →
   footer (DataTable title (Some (rows0 :: R)) columns subtitle showFooterTotals) = None).
Proof.
  assert (Hiff : ∀ Q : list row,
            negb (size (totals rows0 (rows0 :: Q) columns) =? 0)%nat = true
            ↔ ∃ c, c ∈ columns ∧ totalled rows0 c = true)
    by (intros Q; apply totals_nonempty).
  cbn [DataTable footer tfoot]. split.
  - destruct (default true showFooterTotals); cbn [andb]; [|done].
    destruct (negb (size (totals rows0 (rows0 :: R) columns) =? 0)%nat) eqn:E1;
      destruct (negb (size (totals rows0 (rows0 :: R') columns) =? 0)%nat) eqn:E2;
      try done.
    + apply (proj1 (Hiff R)) in E1. apply (proj2 (Hiff R')) in E1. congruence.
    + apply (proj1 (Hiff R')) in E2. apply (proj2 (Hiff R)) in E2. congruence.
  - intros Hno.
    destruct (negb (size (totals rows0 (rows0 :: R) columns) =? 0)%nat) eqn:E1;
      [|by rewrite andb_false_r].
    apply (proj1 (Hiff R)) in E1 as (c & Hc & Ht). unfold totalled in Ht.
    apply andb_true_iff in Ht as [Ht Hn]. rewrite (Hno c Hc Ht) in Hn. done.
Qed.

End FooterMore.
